(** * Rotated-rectangle annotation tool: geometry and per-image session

    A shallow embedding of [annotation.py]:

    - [rectangle_w_angle] (the geometry engine),
    - [annotate_image] (three clicks to one rectangle, and what it draws),
    - the per-image [while] loop of [main] that appends four lines per
      rectangle to the annotation file,
    - the loop of [main] over the images, each with its annotation file.

    The Python code computes on [numpy] scalars and arrays.  The code is
    embedded once, over an interface [NumOps] of the scalar operations it
    calls, so that everything proved in the generic part holds for any
    implementation of the scalars.  The interface has two instances:

    - [Binary64.b64_ops], on Rocq's primitive floats: the IEEE 754
      binary64 numbers the program computes with, the functions of the C
      library being parameters;
    - [R_ops], on the real numbers: the same formulas without rounding.

    What is stated of the program's results is proved generically or on
    binary64; the lemmas named [exact_...] say what the formulas give in
    exact arithmetic, which the binary64 results need not satisfy exactly
    (see [Binary64Facts]). *)

From Stdlib Require Import Reals Lra Lia List String Ascii Bool Arith.
From Stdlib Require ZArith QArith Qabs Floats.
Import ListNotations.

Set Implicit Arguments.

(** ** The scalar operations used by the program *)

Declare Scope num_scope.
Delimit Scope num_scope with num.

Class NumOps (F : Type) : Type := {
  f_of_nat  : nat -> F;            (* integer literals: 2, 180 *)
  f_add     : F -> F -> F;         (* a + b *)
  f_sub     : F -> F -> F;         (* a - b *)
  f_mul     : F -> F -> F;         (* a * b *)
  f_div     : F -> F -> F;         (* a / b *)
  f_neg     : F -> F;              (* -a *)
  f_pow     : F -> nat -> F;       (* a ** n *)
  f_sqrt    : F -> F;              (* np.sqrt *)
  f_cos     : F -> F;              (* np.cos *)
  f_sin     : F -> F;              (* np.sin *)
  f_arctan2 : F -> F -> F;         (* np.arctan2(y, x) *)
  f_pi      : F                    (* np.pi *)
}.

Infix "+" := f_add : num_scope.
Infix "-" := f_sub : num_scope.
Infix "*" := f_mul : num_scope.
Infix "/" := f_div : num_scope.
Notation "- a" := (f_neg a) : num_scope.

(** ** The part of numpy the program uses *)

Module Numpy.
Section Arrays.
Context {F : Type} `{NumOps F}.
Local Open Scope num_scope.

(** A one-dimensional array is the list of its entries; a two-dimensional
    array is the list of its rows. *)
Definition array1 : Type := list F.
Definition array2 : Type := list (list F).

(** [np.deg2rad]: multiplication by pi/180. *)
Definition deg2rad (a : F) : F := a * (f_pi / f_of_nat 180).

(** [a + b] on two arrays of one shape (the program only adds arrays of
    length 2). *)
Fixpoint arr_add (a b : array1) : array1 :=
  match a, b with
  | u :: a', v :: b' => (u + v) :: arr_add a' b'
  | _, _ => []
  end.

(** [k * a] for a scalar [k]. *)
Definition arr_scale (k : F) (a : array1) : array1 := map (fun v => k * v) a.

(** [np.column_stack] on one-dimensional arrays of one length: the arrays
    become the columns of the result.  (numpy raises on arrays of
    different lengths; the program stacks four arrays of length 2.) *)
Definition column_stack (cols : list array1) : array2 :=
  match cols with
  | [] => []
  | c :: _ =>
      map (fun r => map (fun col => nth r col (f_of_nat 0)) cols)
          (seq 0 (List.length c))
  end.

(** [m[r, c]]; [None] stands for Python's IndexError. *)
Definition getitem2 (m : array2) (r c : nat) : option F :=
  match nth_error m r with
  | Some row => nth_error row c
  | None => None
  end.

(** [m[:, c]] as a pair, for a matrix of two rows. *)
Definition column (m : array2) (c : nat) : option (F * F) :=
  match getitem2 m 0 c, getitem2 m 1 c with
  | Some a, Some b => Some (a, b)
  | _, _ => None
  end.
End Arrays.
End Numpy.
Import Numpy.

(** ** [rectangle_w_angle] *)

Section Geometry.
Context {F : Type} `{NumOps F}.
Local Open Scope num_scope.

Definition rectangle_w_angle (x y width height angle_deg : F) : array2 :=
  let theta := deg2rad angle_deg in
  let v1 := [x; y] in
  let v2 := arr_add v1 [width * f_cos theta; width * f_sin theta] in
  let perp := [- f_sin theta; f_cos theta] in
  let v4 := arr_add v1 (arr_scale height perp) in
  let v3 := arr_add v2 (arr_scale height perp) in
  let vertices := column_stack [v1; v2; v3; v4] in
  vertices.

(** The corners as the contract of the geometry engine words them, on
    points and vectors. *)
Definition vplus (p q : F * F) : F * F := (fst p + fst q, snd p + snd q).
Definition vtimes (k : F) (p : F * F) : F * F := (k * fst p, k * snd p).
Definition cos_deg (a : F) : F := f_cos (deg2rad a).
Definition sin_deg (a : F) : F := f_sin (deg2rad a).

Definition contract_v1 (x y : F) : F * F := (x, y).
Definition contract_v2 (x y w a : F) : F * F :=
  vplus (x, y) (vtimes w (cos_deg a, sin_deg a)).
Definition contract_v3 (x y w h a : F) : F * F :=
  vplus (contract_v2 x y w a) (vtimes h (- sin_deg a, cos_deg a)).
Definition contract_v4 (x y h a : F) : F * F :=
  vplus (contract_v1 x y) (vtimes h (- sin_deg a, cos_deg a)).
End Geometry.

(** ** The scalars as real numbers *)

(** The formulas of the program read in exact real arithmetic: no
    rounding, no overflow, one zero.  The binary64 instance is
    [Binary64.b64_ops]. *)

Module RealModel.
Local Open Scope R_scope.

(** [np.arctan2(y, x)] on real arguments: the angle of the point (x, y)
    in (-pi, pi], and 0 at the origin. *)
Definition arctan2 (y x : R) : R :=
  if Rlt_dec 0 x then atan (y / x)
  else if Rlt_dec x 0 then
    (if Rle_dec 0 y then atan (y / x) + PI else atan (y / x) - PI)
  else if Rlt_dec 0 y then PI / 2
  else if Rlt_dec y 0 then - (PI / 2)
  else 0.

#[export] Instance R_ops : NumOps R := {|
  f_of_nat  := INR;
  f_add     := Rplus;
  f_sub     := Rminus;
  f_mul     := Rmult;
  f_div     := Rdiv;
  f_neg     := Ropp;
  f_pow     := pow;
  f_sqrt    := sqrt;
  f_cos     := cos;
  f_sin     := sin;
  f_arctan2 := arctan2;
  f_pi      := PI
|}.
End RealModel.
Import RealModel.

(** Corner [i] (0..3) of a returned array as a point of the plane; the
    origin stands in for a missing column. *)
Definition corner (m : list (list R)) (i : nat) : R * R :=
  match column m i with
  | Some p => p
  | None => (0%R, 0%R)
  end.

(** Reading the scalar operations at the real instance. *)
Ltac real_ops :=
  cbn [fst snd f_of_nat f_add f_sub f_mul f_div f_neg f_pow f_sqrt f_cos
       f_sin f_arctan2 f_pi R_ops] in *.

(** ** Exceptions, the annotation file and the user's input *)

Inductive exn : Type :=
| ValueError    (* unpacking a sequence that has too many values *)
| IndexError.   (* an index out of the bounds of an array *)

(** The content of the open annotation file is a string; a computation
    on it returns a value or raises, and leaves the new content. *)
Definition IO (A : Type) : Type := string -> (exn + A) * string.

Definition ret {A : Type} (a : A) : IO A := fun f => (inr a, f).

Definition raise {A : Type} (e : exn) : IO A := fun f => (inl e, f).

Definition bind {A B : Type} (m : IO A) (k : A -> IO B) : IO B :=
  fun f =>
    match m f with
    | (inr a, f') => k a f'
    | (inl e, f') => (inl e, f')
    end.

Notation "x <- m ;; k" := (bind m (fun x => k))
  (at level 61, m at next level, right associativity).
Notation "m ;;; k" := (bind m (fun _ => k))
  (at level 61, right associativity).

(** [anno_file.write(s)]: the text joins the content that the file holds
    once it is closed (line 112); before that, part of it may still be
    in the buffer of the file object. *)
Definition write (s : string) : IO unit := fun f => (inr tt, (f ++ s)%string).

(** [for i in range(n): body(i)]. *)
Fixpoint for_in (range : list nat) (body : nat -> IO unit) : IO unit :=
  match range with
  | [] => ret tt
  | i :: range' => body i ;;; for_in range' body
  end.

Definition newline : ascii := ascii_of_nat 10.
Definition space : ascii := ascii_of_nat 32.
Definition nl : string := String newline EmptyString.
Definition sp : string := String space EmptyString.

Arguments newline : simpl never.
Arguments space : simpl never.

(** Where the loop of one image stands once the given input is used up:
    blocked in [plt.ginput] for further clicks, or left (the file is then
    closed). *)
Inductive status : Type := AwaitingClicks | Terminated.

Section Session.
Context {F : Type} `{NumOps F}.
Local Open Scope num_scope.

(** [f"{v}"] for a numpy scalar: the formatting is the library's. *)
Variable fmt : F -> string.

Definition point : Type := (F * F)%type.

(** What the environment answers at one turn of the [while] loop:
    [plt.fignum_exists] is false, or it is true and [plt.ginput(3)]
    returns the points clicked before the capture ended. *)
Inductive event : Type :=
| FigClosed
| Ginput (pts : list point).

(** The three quantities [annotate_image] derives from the clicks
    (lines 42, 44 and 46 of the source). *)
Definition width_of (p1 p2 : point) : F :=
  let '(x, y) := p1 in let '(x2, y2) := p2 in
  f_sqrt (f_pow (x - x2) 2 + f_pow (y - y2) 2).

Definition angle_of (p1 p2 : point) : F :=
  let '(x, y) := p1 in let '(x2, y2) := p2 in
  f_arctan2 (y2 - y) (x2 - x) * f_of_nat 180 / f_pi.

Definition height_of (p2 p3 : point) : F :=
  let '(x2, y2) := p2 in let '(x3, y3) := p3 in
  f_sqrt (f_pow (x3 - x2) 2 + f_pow (y3 - y2) 2).

(** [annotate_image]: [inr None] is Python's [None]; the drawing calls on
    the axes leave the file and the returned array alone and are left out.
    Unpacking more than three points raises ValueError. *)
Definition annotate_image (pts : list point) : exn + option array2 :=
  if (List.length pts <? 3)%nat then inr None
  else
    match pts with
    | [(x, y); (x2, y2); (x3, y3)] =>
        let width := width_of (x, y) (x2, y2) in
        let angle := angle_of (x, y) (x2, y2) in
        let height := height_of (x2, y2) (x3, y3) in
        let vertices := rectangle_w_angle x y width height angle in
        inr (Some vertices)
    | _ => inl ValueError
    end.

(** [vertices[r, c]] inside the file computation. *)
Definition getitem (m : array2) (r c : nat) : IO F :=
  match getitem2 m r c with
  | Some v => ret v
  | None => raise IndexError
  end.

(** Lines 107-109: the four writes for one rectangle. *)
Definition write_vertices (vertices : array2) : IO unit :=
  for_in (seq 0 4) (fun i =>
    a <- getitem vertices 0 i ;;
    b <- getitem vertices 1 i ;;
    write (fmt a ++ sp ++ fmt b ++ nl)%string).

(** Lines 102-110: the [while] loop of one image, run on the answers of the
    environment. *)
Fixpoint main_while (tr : list event) : IO status :=
  match tr with
  | [] => ret AwaitingClicks
  | FigClosed :: _ => ret Terminated
  | Ginput pts :: tr' =>
      match annotate_image pts with
      | inl e => raise e
      | inr None => ret Terminated
      | inr (Some vertices) => write_vertices vertices ;;; main_while tr'
      end
  end.

(** Lines 81-112 for one image: the file is opened with mode 'w', so its
    content starts empty. *)
Definition main_image (tr : list event) : (exn + status) * string :=
  main_while tr EmptyString.

(** The captures that complete a rectangle: the three-click captures made
    while the loop is still running. *)
Fixpoint completed (tr : list event) : list (list point) :=
  match tr with
  | Ginput pts :: tr' =>
      if (List.length pts =? 3)%nat then pts :: completed tr' else []
  | _ => []
  end.

(** One line of the file for a point, without its end of line. *)
Definition line_of (p : point) : string := (fmt (fst p) ++ sp ++ fmt (snd p))%string.

(** The four lines a three-click capture is to contribute: the corners
    v1, v2, v3, v4 of the contract, for the width, height and angle of
    the clicks. *)
Definition rect_lines (pts : list point) : list string :=
  match pts with
  | [p1; p2; p3] =>
      let w := width_of p1 p2 in
      let h := height_of p2 p3 in
      let a := angle_of p1 p2 in
      [ line_of (contract_v1 (fst p1) (snd p1));
        line_of (contract_v2 (fst p1) (snd p1) w a);
        line_of (contract_v3 (fst p1) (snd p1) w h a);
        line_of (contract_v4 (fst p1) (snd p1) h a) ]
  | _ => []
  end.
End Session.

(** ** Reading the file back *)

(** The lines of a text, as iterating over a file gives them, without
    their end of line. *)
Fixpoint lines (s : string) : list string :=
  match s with
  | EmptyString => []
  | String c s' =>
      if Ascii.eqb c newline then EmptyString :: lines s'
      else match lines s' with
           | [] => [String c EmptyString]
           | l :: ls => String c l :: ls
           end
  end.

(** [s.split(" ")]. *)
Fixpoint split_space (s : string) : list string :=
  match s with
  | EmptyString => [EmptyString]
  | String c s' =>
      if Ascii.eqb c space then EmptyString :: split_space s'
      else match split_space s' with
           | [] => [String c EmptyString]
           | l :: ls => String c l :: ls
           end
  end.

(** A string without a space and without an end of line. *)
Fixpoint plain (s : string) : bool :=
  match s with
  | EmptyString => true
  | String c s' => negb (Ascii.eqb c newline) && negb (Ascii.eqb c space) && plain s'
  end.

(** A line that reads back as two numbers, for a given reader of one
    number. *)
Definition two_floats {F : Type} (parse : string -> option F) (l : string) : bool :=
  match split_space l with
  | [a; b] =>
      match parse a, parse b with
      | Some _, Some _ => true
      | _, _ => false
      end
  | _ => false
  end.

(** ** The notions of the specification, on real points *)

Module Plane.
Local Open Scope R_scope.

Definition vminus (p q : R * R) : R * R := (fst p - fst q, snd p - snd q).

Definition dot (u v : R * R) : R := fst u * fst v + snd u * snd v.

(** Euclidean distance between two points. *)
Definition euclidean_distance (p q : R * R) : R :=
  sqrt (Rsqr (fst q - fst p) + Rsqr (snd q - snd p)).

(** Radians to degrees. *)
Definition degrees (r : R) : R := r * (180 / PI).

(** The direction at an angle given in degrees. *)
Definition direction (a : R) : R * R := (cos_deg a, sin_deg a).

(** Length of a vector, and the angle between two vectors in degrees. *)
Definition norm (u : R * R) : R := sqrt (dot u u).

Definition angle_between (u v : R * R) : R :=
  degrees (acos (dot u v / (norm u * norm v))).

(** Signed area of the quadrilateral through four points in order
    (the shoelace formula), and its area. *)
Definition signed_area (p1 p2 p3 p4 : R * R) : R :=
  ((fst p1 * snd p2 - fst p2 * snd p1)
   + (fst p2 * snd p3 - fst p3 * snd p2)
   + (fst p3 * snd p4 - fst p4 * snd p3)
   + (fst p4 * snd p1 - fst p1 * snd p4)) / 2.

Definition area (m : list (list R)) : R :=
  Rabs (signed_area (corner m 0) (corner m 1) (corner m 2) (corner m 3)).

Definition degenerate (m : list (list R)) : Prop := area m = 0.
End Plane.
Import Plane.

(** The text made of the given lines, each followed by its end of line. *)
Fixpoint unlines (ls : list string) : string :=
  match ls with
  | [] => EmptyString
  | l :: ls' => (l ++ nl ++ unlines ls')%string
  end.
(** ** What [annotate_image] draws *)

(** One call [ax.plot(xs, ys, style)]. *)
Inductive plot_call (F : Type) : Type :=
| Plot (xs ys : list F) (style : string).

Section Drawing.
Context {F : Type} `{NumOps F}.
Local Open Scope num_scope.

(** [m[r, :]]; [None] stands for Python's IndexError. *)
Definition getrow (m : array2) (r : nat) : option (list F) := nth_error m r.

(** Lines 48-56 of [annotate_image]: the calls on the axes, in order.
    Nothing is drawn when fewer than three points were captured. *)
Definition annotate_image_plots (pts : list (@point F)) : exn + list (plot_call F) :=
  if (List.length pts <? 3)%nat then inr []
  else
    match pts with
    | [(x, y); (x2, y2); (x3, y3)] =>
        let width := width_of (x, y) (x2, y2) in
        let angle := angle_of (x, y) (x2, y2) in
        let height := height_of (x2, y2) (x3, y3) in
        let vertices := rectangle_w_angle x y width height angle in
        match getrow vertices 0, getitem2 vertices 0 0,
              getrow vertices 1, getitem2 vertices 1 0 with
        | Some row0, Some v00, Some row1, Some v10 =>
            let xs := row0 ++ [v00] in
            let ys := row1 ++ [v10] in
            inr [ Plot [x] [y] "ro";
                  Plot [x; x2] [y; y2] "-ro";
                  Plot xs ys "-g" ]
        | _, _, _, _ => inl IndexError
        end
    | _ => inl ValueError
    end.

(** The points a [plot] call joins. *)
Definition plot_points (c : plot_call F) : list (F * F) :=
  match c with
  | Plot xs ys _ => combine xs ys
  end.
End Drawing.

(** ** [main]: one session per image *)

(** The annotation files: the content stored at each path, if any. *)
Definition files : Type := string -> option string.

(** The file at [path] now holds [content]. *)
Definition store (fs : files) (path content : string) : files :=
  fun q => if String.eqb q path then Some content else fs q.

Section Main.
Context {F : Type} `{NumOps F}.
Variable fmt : F -> string.

(** The functions of [os.path] that [main] calls. *)
Variable basename : string -> string.
Variable splitext : string -> string * string.
Variable join : string -> string -> string.

Definition annoDataDir : string := "data/Annotations/".

(** Lines 73-74 and 80: the annotation file of an image. *)
Definition anno_filename_of (imgPath : string) : string :=
  let base := basename imgPath in
  let '(imgname, _) := splitext base in
  join annoDataDir (imgname ++ "_annotations.txt")%string.

(** Lines 71-113: the loop over the images listed by [glob], each paired
    with the answers of the environment while its window is shown.  The
    file of an image is opened with mode 'w', filled by the session and
    closed; the next image is reached only when the loop of this one is
    left.  A session that is still waiting for clicks, or that raises,
    ends the run there. *)
Fixpoint main (imgFiles : list (string * list (@event F))) (fs : files)
  : (exn + status) * files :=
  match imgFiles with
  | [] => (inr Terminated, fs)
  | (imgPath, tr) :: imgFiles' =>
      let anno_filename := anno_filename_of imgPath in
      let '(res, anno_file) := main_image fmt tr in
      let fs' := store fs anno_filename anno_file in
      match res with
      | inr Terminated => main imgFiles' fs'
      | _ => (res, fs')
      end
  end.

(** The loop of the image is left: the figure was closed or a capture
    was cut short. *)
Definition left_loop (r : string * list (@event F)) : Prop :=
  fst (main_image fmt (snd r)) = inr Terminated.

(** The last session, if any, that wrote the file at [path]. *)
Definition last_session (imgFiles : list (string * list (@event F))) (path : string)
  : option (string * list (@event F)) :=
  find (fun r => String.eqb path (anno_filename_of (fst r))) (rev imgFiles).
End Main.

(** ** The scalars as binary64 numbers *)

(** The program computes on IEEE 754 binary64 numbers: Rocq's primitive
    floats.  [np.cos], [np.sin] and [np.arctan2] call the C library,
    which Rocq's floats do not have: the instance takes them as
    parameters, and what is proved of it holds whatever these functions
    return. *)
Module Binary64.
Import PrimFloat SpecFloat FloatOps.
Local Open Scope float_scope.

(** An integer literal as a float. *)
Definition b64_of_nat (n : nat) : float := of_uint63 (Uint63.of_Z (Z.of_nat n)).

(** [a ** n] for a small integer [n], as repeated products ([a ** 2] is
    [a * a]). *)
Fixpoint b64_pow (a : float) (n : nat) : float :=
  match n with
  | O => 1
  | S O => a
  | S n' => a * b64_pow a n'
  end.

(** [np.pi]: the binary64 number nearest to pi. *)
Definition b64_pi : float := 0x1.921fb54442d18p+1.

Definition b64_ops (libm_cos libm_sin : float -> float)
    (libm_atan2 : float -> float -> float) : NumOps float :=
  {| f_of_nat  := b64_of_nat;
     f_add     := add;
     f_sub     := sub;
     f_mul     := mul;
     f_div     := div;
     f_neg     := opp;
     f_pow     := b64_pow;
     f_sqrt    := sqrt;
     f_cos     := libm_cos;
     f_sin     := libm_sin;
     f_arctan2 := libm_atan2;
     f_pi      := b64_pi |}.

(** The binary64 number nearest to pi/2; it is [np.deg2rad(90.0)]. *)
Definition half_pi : float := 0x1.921fb54442d18p+0.

(** The values of the C library at the arguments that the examples
    reach: cos 0 = 1, sin 0 = 0 and atan2(y, 0) = pi/2 for y > 0 are fixed
    by the C standard (Annex F); the cosine of [half_pi] is the distance
    from [half_pi] to pi/2, 6.123233995736766e-17, and its sine rounds to
    1.  Outside these arguments the table has no information and answers
    nan; nothing below evaluates it there. *)
Definition tab_cos (t : float) : float :=
  if Leibniz.eqb t 0 then 1
  else if Leibniz.eqb t half_pi then 0x1.1a62633145c07p-54
  else nan.

Definition tab_sin (t : float) : float :=
  if Leibniz.eqb t 0 then 0
  else if Leibniz.eqb t half_pi then 1
  else nan.

Definition tab_atan2 (y x : float) : float :=
  if Leibniz.eqb y 10 && Leibniz.eqb x 0 then half_pi else nan.

Definition b64_tab : NumOps float := b64_ops tab_cos tab_sin tab_atan2.

(** [a == 0] holds of both zeros. *)
Definition b64_same (a b : float) : Prop :=
  a = b \/ (is_zero a = true /\ is_zero b = true).

(** A number: neither an infinity nor nan. *)
Definition b64_number (a : float) : bool :=
  match Prim2SF a with
  | S754_zero _ | S754_finite _ _ _ => true
  | _ => false
  end.

(** Corner [i] of an array of floats. *)
Definition b64_corner (m : list (list float)) (i : nat) : float * float :=
  match column m i with
  | Some p => p
  | None => (0, 0)
  end.

Definition same_point (p q : float * float) : Prop :=
  b64_same (fst p) (fst q) /\ b64_same (snd p) (snd q).
End Binary64.

(** ** The exact value of binary64 results *)

(** A binary64 number is a rational; the notions of the plane are
    computed on these rationals without rounding. *)
Module Exact.
Import QArith Qabs.
Import SpecFloat FloatOps.
Local Open Scope Q_scope.

(** The value of a float that is a number (0 for an infinity and for
    nan, which have none). *)
Definition b64_to_Q (a : PrimFloat.float) : Q :=
  match Prim2SF a with
  | S754_finite s m e => inject_Z (cond_Zopp s (Zpos m)) * Qpower 2 e
  | _ => 0
  end.

Definition exact (p : PrimFloat.float * PrimFloat.float) : Q * Q :=
  (b64_to_Q (fst p), b64_to_Q (snd p)).





(** The shoelace formula on four points, as [signed_area]. *)
Definition qsigned_area (p1 p2 p3 p4 : Q * Q) : Q :=
  ((fst p1 * snd p2 - fst p2 * snd p1)
   + (fst p2 * snd p3 - fst p3 * snd p2)
   + (fst p3 * snd p4 - fst p4 * snd p3)
   + (fst p4 * snd p1 - fst p1 * snd p4)) / 2.

(** Zero area, for an array of floats. *)
Definition b64_degenerate (m : list (list PrimFloat.float)) : Prop :=
  qsigned_area (exact (Binary64.b64_corner m 0)) (exact (Binary64.b64_corner m 1))
               (exact (Binary64.b64_corner m 2)) (exact (Binary64.b64_corner m 3))
  == 0.

(** Within [tol] of a target, coordinate by coordinate. *)
Definition within (tol : Q) (p : PrimFloat.float * PrimFloat.float) (target : Q * Q) : bool :=
  Qle_bool (Qabs (b64_to_Q (fst p) - fst target)) tol
  && Qle_bool (Qabs (b64_to_Q (snd p) - snd target)) tol.
End Exact.

(** ** Theorems on the geometry engine *)

Section GeometryGeneric.
Context {F : Type} `{NumOps F}.

(** C1: for every origin (x, y), width, height and angle in degrees, the
    array returned by [rectangle_w_angle] has exactly four columns, which
    are in this order v1 = (x, y), v2 = v1 + w (cos, sin),
    v3 = v2 + h (-sin, cos) and v4 = v1 + h (-sin, cos); the first column
    is (x, y) itself.  This holds for any implementation of the scalar
    operations. *)
Theorem rectangle_w_angle_corners (x y w h a : F) :
  column (rectangle_w_angle x y w h a) 0 = Some (x, y)
  /\ column (rectangle_w_angle x y w h a) 0 = Some (contract_v1 x y)
  /\ column (rectangle_w_angle x y w h a) 1 = Some (contract_v2 x y w a)
  /\ column (rectangle_w_angle x y w h a) 2 = Some (contract_v3 x y w h a)
  /\ column (rectangle_w_angle x y w h a) 3 = Some (contract_v4 x y h a)
  /\ column (rectangle_w_angle x y w h a) 4 = None
  /\ List.length (rectangle_w_angle x y w h a) = 2%nat.
Proof.
  repeat split; reflexivity.
Qed.
End GeometryGeneric.

(** ** The geometry engine on real numbers *)

(** What the formulas of [rectangle_w_angle] give in exact arithmetic.
    The binary64 results need not satisfy the lemmas [exact_...]
    exactly; [Binary64Facts] has inputs where they do not. *)

Section GeometryReal.
Local Open Scope R_scope.
Implicit Types x y w h a width height angle : R.

Lemma INR_180 : INR 180 = 180.
Proof. rewrite INR_IZR_INZ. reflexivity. Qed.

(** The four corners of the returned array, written out. *)
Lemma corner_0 x y w h a : corner (rectangle_w_angle x y w h a) 0 = (x, y).
Proof. reflexivity. Qed.

Lemma corner_1 x y w h a :
  corner (rectangle_w_angle x y w h a) 1
  = (x + w * cos_deg a, y + w * sin_deg a).
Proof. reflexivity. Qed.

Lemma corner_2 x y w h a :
  corner (rectangle_w_angle x y w h a) 2
  = (x + w * cos_deg a + h * - sin_deg a, y + w * sin_deg a + h * cos_deg a).
Proof. reflexivity. Qed.

Lemma corner_3 x y w h a :
  corner (rectangle_w_angle x y w h a) 3
  = (x + h * - sin_deg a, y + h * cos_deg a).
Proof. reflexivity. Qed.

Lemma column_corner x y w h a (i : nat) :
  (i < 4)%nat ->
  column (rectangle_w_angle x y w h a) i
  = Some (corner (rectangle_w_angle x y w h a) i).
Proof.
  intros Hi.
  destruct i as [|[|[|[|i]]]]; try reflexivity; lia.
Qed.

Lemma cos_sin_deg_1 a : cos_deg a * cos_deg a + sin_deg a * sin_deg a = 1.
Proof.
  unfold cos_deg, sin_deg. real_ops.
  rewrite <- (sin2_cos2 (deg2rad a)). unfold Rsqr. ring.
Qed.

Lemma deg2rad_plus_90 a : deg2rad (a + 90) = deg2rad a + PI / 2.
Proof.
  unfold deg2rad. real_ops.
  rewrite INR_180. field.
Qed.

Lemma cos_deg_plus_90 a : cos_deg (a + 90) = - sin_deg a.
Proof.
  unfold cos_deg, sin_deg. rewrite deg2rad_plus_90. real_ops.
  rewrite cos_plus, cos_PI2, sin_PI2. ring.
Qed.

Lemma sin_deg_plus_90 a : sin_deg (a + 90) = cos_deg a.
Proof.
  unfold cos_deg, sin_deg. rewrite deg2rad_plus_90. real_ops.
  rewrite sin_plus, cos_PI2, sin_PI2. ring.
Qed.

Lemma norm_vtimes_direction (k a : R) : norm (vtimes k (direction a)) = Rabs k.
Proof.
  unfold norm, dot, vtimes, direction. real_ops.
  rewrite <- sqrt_Rsqr_abs. f_equal. unfold Rsqr.
  rewrite <- (Rmult_1_r (k * k)), <- (cos_sin_deg_1 a). ring.
Qed.

Lemma degrees_right_angle : degrees (PI / 2) = 90.
Proof. unfold degrees. field. apply PI_neq0. Qed.

(** In exact arithmetic, for all inputs, the sides v2 - v1 and v4 - v1 of the returned
    corners have dot product zero; v2 - v1 is [width] along the direction
    of the angle and v4 - v1 is [height] along the direction of the angle
    plus 90 degrees, that is, the first direction turned counterclockwise
    by a right angle.  When neither side is the zero vector (width and
    height not zero) the angle between them is 90 degrees. *)
Theorem exact_sides_perpendicular x y width height angle :
  let m := rectangle_w_angle x y width height angle in
  let u := vminus (corner m 1) (corner m 0) in
  let v := vminus (corner m 3) (corner m 0) in
  dot u v = 0
  /\ u = vtimes width (direction angle)
  /\ v = vtimes height (direction (angle + 90))
  /\ direction (angle + 90) = (- snd (direction angle), fst (direction angle))
  /\ (width <> 0 -> height <> 0 ->
      norm u <> 0 /\ norm v <> 0 /\ angle_between u v = 90).
Proof.
  intros m u v.
  assert (Hu : u = vtimes width (direction angle)).
  { subst u m. rewrite corner_0, corner_1.
    unfold vminus, vtimes, direction. real_ops. f_equal; ring. }
  assert (Hv : v = vtimes height (direction (angle + 90))).
  { subst v m. rewrite corner_0, corner_3.
    unfold vminus, vtimes, direction. real_ops.
    rewrite cos_deg_plus_90, sin_deg_plus_90. f_equal; ring. }
  assert (Hd : dot u v = 0).
  { rewrite Hu, Hv. unfold dot, vtimes, direction. real_ops.
    rewrite cos_deg_plus_90, sin_deg_plus_90. ring. }
  repeat split; try assumption.
  - unfold direction. cbn [fst snd].
    now rewrite cos_deg_plus_90, sin_deg_plus_90.
  - rewrite Hu, norm_vtimes_direction. now apply Rabs_no_R0.
  - rewrite Hv, norm_vtimes_direction. now apply Rabs_no_R0.
  - unfold angle_between. rewrite Hd.
    unfold Rdiv. rewrite Rmult_0_l, acos_0. apply degrees_right_angle.
Qed.

Lemma area_rectangle x y w h a :
  area (rectangle_w_angle x y w h a) = Rabs (w * h).
Proof.
  unfold area, signed_area.
  rewrite corner_0, corner_1, corner_2, corner_3. cbn [fst snd].
  f_equal.
  generalize (cos_sin_deg_1 a).
  generalize (cos_deg a) (sin_deg a). intros c s Hcs.
  replace (w * h) with (w * h * (c * c + s * s)) by (rewrite Hcs; ring).
  field.
Qed.

(** In exact arithmetic, for all inputs, the returned rectangle has zero area if and
    only if the width is zero or the height is zero. *)
Theorem exact_degenerate_iff x y width height angle :
  degenerate (rectangle_w_angle x y width height angle)
  <-> (width = 0 \/ height = 0).
Proof.
  unfold degenerate. rewrite area_rectangle.
  split.
  - intros Ha.
    destruct (Req_dec (width * height) 0) as [Hz | Hnz].
    + now apply Rmult_integral.
    + exfalso. now apply (Rabs_no_R0 _ Hnz).
  - intros [-> | ->].
    + now rewrite Rmult_0_l, Rabs_R0.
    + now rewrite Rmult_0_r, Rabs_R0.
Qed.

(** In exact arithmetic, for every width that is not negative, and all other inputs, the
    Euclidean distance between the returned corners v1 and v2 is the
    width; so the two differ by no more than any tolerance. *)
Theorem exact_distance_v1_v2 x y width height angle :
  0 <= width ->
  let m := rectangle_w_angle x y width height angle in
  euclidean_distance (corner m 0) (corner m 1) = width
  /\ forall tol, 0 <= tol ->
       Rabs (euclidean_distance (corner m 0) (corner m 1) - width) <= tol.
Proof.
  intros Hw m. subst m.
  assert (E : euclidean_distance (corner (rectangle_w_angle x y width height angle) 0)
                (corner (rectangle_w_angle x y width height angle) 1) = width).
  { rewrite corner_0, corner_1.
    unfold euclidean_distance. cbn [fst snd].
    replace (Rsqr (x + width * cos_deg angle - x)
             + Rsqr (y + width * sin_deg angle - y))
      with (Rsqr width).
    - now apply sqrt_Rsqr.
    - unfold Rsqr. generalize (cos_sin_deg_1 angle).
      generalize (cos_deg angle) (sin_deg angle). intros c s Hcs.
      replace (width * width) with (width * width * (c * c + s * s))
        by (rewrite Hcs; ring).
      ring. }
  split; [exact E|].
  intros tol Htol. rewrite E.
  replace (width - width) with 0 by ring. now rewrite Rabs_R0.
Qed.

(** In exact arithmetic, for every input, whatever the signs of the width and the height
    and whatever the angle, the function returns four corners, and they
    satisfy v1 + v3 = v2 + v4 and v3 - v2 = v4 - v1. *)
Theorem exact_parallelogram_identity x y width height angle :
  let m := rectangle_w_angle x y width height angle in
  (forall i, (i < 4)%nat -> column m i = Some (corner m i))
  /\ vplus (corner m 0) (corner m 2) = vplus (corner m 1) (corner m 3)
  /\ vminus (corner m 2) (corner m 1) = vminus (corner m 3) (corner m 0).
Proof.
  intros m. subst m.
  split; [intros i Hi; now apply column_corner|].
  rewrite corner_0, corner_1, corner_2, corner_3.
  unfold vplus, vminus. real_ops.
  split; f_equal; ring.
Qed.
End GeometryReal.

(** ** Strings: lines and fields *)

Section Strings.
Local Open Scope string_scope.

Lemma append_assoc (a b c : string) : (a ++ b) ++ c = a ++ (b ++ c).
Proof. induction a as [|ch a IH]; cbn; [reflexivity | now rewrite IH]. Qed.

Lemma append_empty_r (a : string) : a ++ "" = a.
Proof. induction a as [|ch a IH]; cbn; [reflexivity | now rewrite IH]. Qed.

Lemma plain_append (a b : string) :
  plain (a ++ b) = plain a && plain b.
Proof.
  induction a as [|ch a IH]; cbn; [reflexivity|].
  rewrite IH. now rewrite andb_assoc.
Qed.

(** A line without an end of line inside is read back as it was written. *)
Lemma lines_line (l rest : string) :
  (forall a b, l <> a ++ String newline b) ->
  lines (l ++ nl ++ rest) = l :: lines rest.
Proof.
  induction l as [|ch l IH]; intros Hl; cbn.
  - reflexivity.
  - destruct (Ascii.eqb ch newline) eqn:E.
    + apply Ascii.eqb_eq in E. subst ch.
      exfalso. now apply (Hl "" l).
    + cbn in IH. rewrite IH; [reflexivity|].
      intros a b Hab. apply (Hl (String ch a) b). cbn. now rewrite Hab.
Qed.

Lemma plain_no_newline (l : string) :
  plain l = true -> forall a b, l <> a ++ String newline b.
Proof.
  intros Hp a b ->. rewrite plain_append in Hp. cbn in Hp.
  rewrite Ascii.eqb_refl in Hp. cbn in Hp.
  now rewrite andb_false_r in Hp.
Qed.

Lemma split_space_plain (a : string) :
  plain a = true -> split_space a = [a].
Proof.
  induction a as [|ch a IH]; cbn; [reflexivity|].
  intros Hp. apply andb_prop in Hp as [Hp Ha].
  apply andb_prop in Hp as [_ Hs].
  apply negb_true_iff in Hs. rewrite Hs, (IH Ha). reflexivity.
Qed.

Lemma split_space_two (a b : string) :
  plain a = true -> plain b = true ->
  split_space (a ++ sp ++ b) = [a; b].
Proof.
  intros Ha Hb.
  induction a as [|ch a IH]; cbn.
  - now rewrite (split_space_plain _ Hb).
  - cbn in Ha. apply andb_prop in Ha as [Hp Ha].
    apply andb_prop in Hp as [_ Hs].
    apply negb_true_iff in Hs. rewrite Hs.
    cbn in IH. now rewrite (IH Ha).
Qed.

(** A space but no end of line: what a line of two fields is made of. *)
Lemma line_no_newline (a b : string) :
  plain a = true -> plain b = true ->
  forall u v, a ++ sp ++ b <> u ++ String newline v.
Proof.
  intros Ha Hb u v E.
  revert u v E.
  induction a as [|ch a IH]; cbn; intros u v E.
  - destruct u as [|c0 u]; cbn in E; injection E as Ec E.
    + unfold space, newline in Ec. discriminate Ec.
    + now apply (plain_no_newline Hb u v).
  - cbn in Ha. apply andb_prop in Ha as [Hp Ha].
    apply andb_prop in Hp as [Hnl _]. apply negb_true_iff in Hnl.
    destruct u as [|c0 u]; cbn in E; injection E as Ec E.
    + subst ch. now rewrite Ascii.eqb_refl in Hnl.
    + now apply (IH Ha u v).
Qed.

Lemma lines_unlines (ls : list string) :
  Forall (fun l => forall a b, l <> a ++ String newline b) ls ->
  lines (unlines ls) = ls.
Proof.
  induction 1 as [|l ls Hl _ IH]; cbn [unlines]; [reflexivity|].
  now rewrite lines_line, IH.
Qed.

Lemma unlines_app (ls ls' : list string) :
  unlines (ls ++ ls') = unlines ls ++ unlines ls'.
Proof.
  induction ls as [|l ls IH]; cbn; [reflexivity|].
  now rewrite IH, !append_assoc.
Qed.
End Strings.

(** ** The session of one image *)

Section SessionGeneric.
Context {F : Type} `{NumOps F}.
Variable fmt : F -> string.
Local Open Scope string_scope.

Lemma annotate_image_3 (p1 p2 p3 : point) :
  annotate_image [p1; p2; p3]
  = inr (Some (rectangle_w_angle (fst p1) (snd p1) (width_of p1 p2)
                 (height_of p2 p3) (angle_of p1 p2))).
Proof. destruct p1, p2, p3. reflexivity. Qed.

Lemma annotate_image_few (pts : list (@point F)) :
  (List.length pts < 3)%nat -> annotate_image pts = inr None.
Proof.
  intros Hlt. unfold annotate_image.
  apply Nat.ltb_lt in Hlt. now rewrite Hlt.
Qed.

Lemma annotate_image_many (pts : list (@point F)) :
  (3 < List.length pts)%nat -> annotate_image pts = inl ValueError.
Proof.
  intros Hgt. unfold annotate_image.
  destruct (Nat.ltb_spec (List.length pts) 3) as [Hlt | _]; [lia|].
  destruct pts as [|[x y] [|[x2 y2] [|[x3 y3] [|p4 pts]]]];
    cbn in Hgt; try lia; reflexivity.
Qed.

(** The four writes of one rectangle never raise and append the four
    corners in the order of the columns. *)
Lemma write_vertices_rectangle (x y w h a : F) (f : string) :
  write_vertices fmt (rectangle_w_angle x y w h a) f
  = (inr tt,
     f ++ unlines [ line_of fmt (contract_v1 x y);
                    line_of fmt (contract_v2 x y w a);
                    line_of fmt (contract_v3 x y w h a);
                    line_of fmt (contract_v4 x y h a) ]).
Proof.
  unfold write_vertices, for_in, bind, getitem, write, ret, line_of,
    contract_v3, contract_v4, contract_v2, contract_v1, vplus, vtimes,
    cos_deg, sin_deg, sp, nl.
  cbn. f_equal.
  repeat (rewrite !append_assoc; cbn). reflexivity.
Qed.

(** What the loop leaves in the file: the lines of the completed
    rectangles after what was there. *)
Lemma main_while_content (tr : list event) (f : string) :
  snd (main_while fmt tr f)
  = f ++ unlines (flat_map (rect_lines fmt) (completed tr)).
Proof.
  revert f. induction tr as [|[|pts] tr IH]; intros f.
  - cbn. now rewrite append_empty_r.
  - cbn. now rewrite append_empty_r.
  - cbn [main_while completed].
    destruct (Nat.eqb_spec (List.length pts) 3) as [H3 | Hn3].
    + destruct pts as [|p1 [|p2 [|p3 [|p4 pts]]]]; try discriminate H3.
      rewrite annotate_image_3. unfold bind.
      rewrite write_vertices_rectangle. rewrite IH.
      cbn [flat_map rect_lines]. rewrite unlines_app, append_assoc.
      reflexivity.
    + cbn [flat_map unlines]. rewrite append_empty_r.
      destruct (Nat.lt_ge_cases (List.length pts) 3) as [Hlt | Hge].
      * now rewrite annotate_image_few.
      * rewrite annotate_image_many by lia. reflexivity.
Qed.

(** Running past three-click captures is running the rest on the file
    they leave. *)
Lemma main_while_app (before : list (list point)) (tr : list event) (f : string) :
  Forall (fun pts => List.length pts = 3%nat) before ->
  main_while fmt (map (@Ginput F) before ++ tr) f
  = main_while fmt tr (snd (main_while fmt (map (@Ginput F) before) f)).
Proof.
  intros Hb. revert f.
  induction Hb as [|pts before H3 _ IH]; intros f; [reflexivity|].
  destruct pts as [|p1 [|p2 [|p3 [|p4 pts]]]]; try discriminate H3.
  cbn [map app main_while].
  rewrite annotate_image_3. unfold bind.
  rewrite write_vertices_rectangle. apply IH.
Qed.

Lemma completed_all (before : list (list point)) :
  Forall (fun pts => List.length pts = 3%nat) before ->
  completed (map (@Ginput F) before) = before.
Proof.
  induction 1 as [|pts before H3 _ IH]; [reflexivity|].
  cbn. now rewrite H3, IH.
Qed.

(** C3: a capture that obtains fewer than three points yields no
    rectangle; the loop is left (Terminated) and the file keeps exactly
    the content it had, whatever was written before: nothing is added and
    the lines of the rectangles completed earlier in the session stay as
    they were. *)
Theorem too_few_clicks_terminates (pts : list point) :
  (List.length pts < 3)%nat ->
  annotate_image pts = inr None
  /\ (forall rest f,
        main_while fmt (Ginput pts :: rest) f = (inr Terminated, f))
  /\ (forall before rest,
        Forall (fun p => List.length p = 3%nat) before ->
        main_image fmt (map (@Ginput F) before ++ Ginput pts :: rest)
        = (inr Terminated, snd (main_image fmt (map (@Ginput F) before)))
        /\ snd (main_image fmt (map (@Ginput F) before))
           = unlines (flat_map (rect_lines fmt) before)).
Proof.
  intros Hlt.
  pose proof (annotate_image_few pts Hlt) as Hnone.
  assert (Hstep : forall rest f,
             main_while fmt (Ginput pts :: rest) f = (inr Terminated, f)).
  { intros rest f. cbn [main_while]. now rewrite Hnone. }
  repeat split; try assumption.
  - unfold main_image. rewrite main_while_app by assumption. apply Hstep.
  - unfold main_image. rewrite main_while_content.
    now rewrite completed_all.
Qed.

Section ReadBack.
Variable parse : string -> option F.
Hypothesis fmt_plain : forall v, plain (fmt v) = true.
Hypothesis fmt_parse : forall v, parse (fmt v) <> None.

Lemma line_of_two_floats (p : point) : two_floats parse (line_of fmt p) = true.
Proof.
  unfold two_floats, line_of.
  rewrite split_space_two by apply fmt_plain.
  destruct (parse (fmt (fst p))) eqn:E1; [|now apply fmt_parse in E1].
  destruct (parse (fmt (snd p))) eqn:E2; [|now apply fmt_parse in E2].
  reflexivity.
Qed.

Lemma rect_lines_shape (pts : list point) :
  List.length pts = 3%nat ->
  List.length (rect_lines fmt pts) = 4%nat
  /\ Forall (fun l => two_floats parse l = true
                      /\ forall a b, l <> a ++ String newline b)
       (rect_lines fmt pts).
Proof.
  intros H3.
  destruct pts as [|p1 [|p2 [|p3 [|p4 pts]]]]; try discriminate H3.
  split; [reflexivity|].
  cbn [rect_lines].
  repeat constructor;
    try apply line_of_two_floats;
    apply line_no_newline; apply fmt_plain.
Qed.

Lemma completed_3 (tr : list event) :
  Forall (fun pts : list (@point F) => List.length pts = 3%nat) (completed tr).
Proof.
  induction tr as [|[|pts] tr IH]; cbn; try constructor.
  destruct (Nat.eqb_spec (List.length pts) 3); now constructor.
Qed.

Lemma flat_rect_lines (done : list (list point)) :
  Forall (fun pts => List.length pts = 3%nat) done ->
  List.length (flat_map (rect_lines fmt) done) = (4 * List.length done)%nat
  /\ Forall (fun l => two_floats parse l = true
                      /\ forall a b, l <> a ++ String newline b)
       (flat_map (rect_lines fmt) done).
Proof.
  induction 1 as [|pts done H3 _ [IHl IHf]]; [split; [reflexivity|constructor]|].
  destruct (rect_lines_shape pts H3) as [Hl Hf].
  cbn [flat_map]. split.
  - rewrite length_app, Hl, IHl. cbn [List.length]. lia.
  - apply Forall_app. now split.
Qed.

(** C2: in a session of one image in which N rectangles are completed,
    the file is made of exactly 4 N lines, each ended by an end of line;
    every line is two fields
    separated by one space, each of which reads back as a number; the
    lines are, rectangle after rectangle in the order of annotation, the
    corners v1, v2, v3, v4 of each rectangle. *)
Theorem session_output_lines (tr : list event) :
  let out := snd (main_image fmt tr) in
  let N := List.length (completed tr) in
  out = unlines (flat_map (rect_lines fmt) (completed tr))
  /\ lines out = flat_map (rect_lines fmt) (completed tr)
  /\ List.length (lines out) = (4 * N)%nat
  /\ Forall (fun l => two_floats parse l = true) (lines out)
  /\ Forall (fun pts => List.length pts = 3%nat
                        /\ List.length (rect_lines fmt pts) = 4%nat)
       (completed tr).
Proof.
  intros out N. subst out N.
  destruct (flat_rect_lines (completed_3 tr)) as [Hlen Hall].
  assert (E : lines (snd (main_image fmt tr))
              = flat_map (rect_lines fmt) (completed tr)).
  { unfold main_image. rewrite main_while_content. cbn [append].
    apply lines_unlines.
    eapply Forall_impl; [|exact Hall]. now intros l [_ Hl]. }
  rewrite E. repeat split; try assumption.
  - unfold main_image. now rewrite main_while_content.
  - eapply Forall_impl; [|exact Hall]. now intros l [Hl _].
  - eapply Forall_impl; [|exact (completed_3 tr)].
    intros pts H3. split; [assumption|].
    now apply rect_lines_shape.
Qed.
End ReadBack.
End SessionGeneric.

(** ** The session on real points *)

Section SessionReal.
Local Open Scope R_scope.

Lemma width_of_distance (p1 p2 : R * R) : width_of p1 p2 = euclidean_distance p1 p2.
Proof.
  destruct p1 as [x y], p2 as [x2 y2].
  unfold width_of, euclidean_distance, Rsqr.
  real_ops.
  f_equal. ring.
Qed.

Lemma height_of_distance (p2 p3 : R * R) : height_of p2 p3 = euclidean_distance p2 p3.
Proof.
  destruct p2 as [x2 y2], p3 as [x3 y3].
  unfold height_of, euclidean_distance, Rsqr.
  real_ops.
  f_equal. ring.
Qed.

Lemma angle_of_degrees (p1 p2 : R * R) :
  angle_of p1 p2 = degrees (arctan2 (snd p2 - snd p1) (fst p2 - fst p1)).
Proof.
  destruct p1 as [x y], p2 as [x2 y2].
  unfold angle_of, degrees.
  real_ops.
  rewrite INR_180. unfold Rdiv. ring.
Qed.

(** C4: for every three captured points P1, P2, P3 the width is the
    Euclidean distance from P1 to P2, the angle is atan2 of the y and x
    differences from P1 to P2 in degrees, the height is the Euclidean
    distance from P2 to P3, and the result of [annotate_image] is the
    geometry engine applied to P1 and these three values. *)
Theorem annotate_image_derivation (p1 p2 p3 : R * R) :
  let width := euclidean_distance p1 p2 in
  let angle := degrees (arctan2 (snd p2 - snd p1) (fst p2 - fst p1)) in
  let height := euclidean_distance p2 p3 in
  annotate_image [p1; p2; p3]
  = inr (Some (rectangle_w_angle (fst p1) (snd p1) width height angle))
  /\ width_of p1 p2 = width
  /\ angle_of p1 p2 = angle
  /\ height_of p2 p3 = height.
Proof.
  cbv zeta.
  rewrite <- width_of_distance, <- height_of_distance, <- angle_of_degrees.
  repeat split. apply annotate_image_3.
Qed.

(** C10: for every three captured points the width and the height that
    [annotate_image] passes to the geometry engine are not negative. *)
Theorem width_height_nonneg (p1 p2 p3 : R * R) :
  annotate_image [p1; p2; p3]
  = inr (Some (rectangle_w_angle (fst p1) (snd p1) (width_of p1 p2)
                 (height_of p2 p3) (angle_of p1 p2)))
  /\ 0 <= width_of p1 p2
  /\ 0 <= height_of p2 p3.
Proof.
  split; [apply annotate_image_3|].
  destruct p1 as [x y], p2 as [x2 y2], p3 as [x3 y3].
  unfold width_of, height_of. real_ops.
  split; apply sqrt_pos.
Qed.

Lemma sqrt_100 : sqrt 100 = 10.
Proof.
  replace 100 with (Rsqr 10) by (unfold Rsqr; lra).
  apply sqrt_Rsqr. lra.
Qed.

Lemma sqrt_25 : sqrt 25 = 5.
Proof.
  replace 25 with (Rsqr 5) by (unfold Rsqr; lra).
  apply sqrt_Rsqr. lra.
Qed.

Lemma arctan2_up (y : R) : 0 < y -> arctan2 y 0 = PI / 2.
Proof.
  intros Hy. unfold arctan2.
  destruct (Rlt_dec 0 0) as [H0 | _]; [lra|].
  destruct (Rlt_dec 0 y) as [_ | Hn]; [reflexivity | contradiction].
Qed.

Lemma deg2rad_90 : deg2rad 90 = PI / 2.
Proof.
  unfold deg2rad. real_ops.
  rewrite INR_180. field.
Qed.

(** In exact arithmetic, for the clicks (0,0), (0,10), (5,10) the derived angle is 90
    degrees and the returned corners are (0,0), (0,10), (-5,10), (-5,0)
    in the order v1, v2, v3, v4. *)
Theorem exact_scenario_vertical :
  let pts := [(0, 0); (0, 10); (5, 10)] in
  angle_of (0, 0) (0, 10) = 90
  /\ annotate_image pts = inr (Some [[0; 0; -5; -5]; [0; 10; 10; 0]])
  /\ exists m, annotate_image pts = inr (Some m)
       /\ column m 0 = Some (0, 0)
       /\ column m 1 = Some (0, 10)
       /\ column m 2 = Some (-5, 10)
       /\ column m 3 = Some (-5, 0).
Proof.
  cbv zeta.
  assert (Ha : angle_of (0, 0) (0, 10) = 90).
  { unfold angle_of. real_ops.
    replace (10 - 0) with 10 by ring. replace (0 - 0) with 0 by ring.
    rewrite arctan2_up by lra. rewrite INR_180.
    field. apply PI_neq0. }
  assert (Hw : width_of (0, 0) (0, 10) = 10).
  { unfold width_of. real_ops.
    replace ((0 - 0) ^ 2 + (0 - 10) ^ 2) with 100 by ring.
    apply sqrt_100. }
  assert (Hh : height_of (0, 10) (5, 10) = 5).
  { unfold height_of. real_ops.
    replace ((5 - 0) ^ 2 + (10 - 10) ^ 2) with 25 by ring.
    apply sqrt_25. }
  assert (E : annotate_image [(0, 0); (0, 10); (5, 10)]
              = inr (Some [[0; 0; -5; -5]; [0; 10; 10; 0]])).
  { etransitivity; [apply annotate_image_3|].
    rewrite Ha, Hw, Hh. cbn [fst snd].
    unfold rectangle_w_angle. rewrite deg2rad_90.
    real_ops. rewrite cos_PI2, sin_PI2.
    cbv [column_stack arr_add arr_scale map seq List.length nth
         f_add f_mul f_neg f_of_nat R_ops].
    do 2 f_equal.
    repeat (f_equal; try ring). }
  split; [exact Ha|]. split; [exact E|].
  eexists. split; [exact E|].
  repeat split.
Qed.
End SessionReal.

(** ** The hypotheses of the session theorems hold of a session *)

Section Witnesses.
Local Open Scope R_scope.

(** A capture of two clicks after one completed rectangle. *)
Lemma too_few_clicks_terminates_witness :
  (List.length [(1, 1); (2, 2)] < 3)%nat
  /\ main_image (fun _ : R => "0"%string)
       [Ginput [(0, 0); (0, 10); (5, 10)]; Ginput [(1, 1); (2, 2)];
        Ginput [(0, 0); (1, 0); (1, 1)]]
     = (inr Terminated,
        snd (main_image (fun _ : R => "0"%string)
               [Ginput [(0, 0); (0, 10); (5, 10)]])).
Proof.
  split; [cbn; lia|].
  apply (proj2 (proj2 (too_few_clicks_terminates (fun _ : R => "0"%string)
                         [(1, 1); (2, 2)] ltac:(cbn; lia)))
           [[(0, 0); (0, 10); (5, 10)]]
           [Ginput [(0, 0); (1, 0); (1, 1)]]).
  repeat constructor.
Defined.

(** A formatting that writes every number as one digit, read back by a
    reader that accepts every field. *)
Lemma session_output_lines_witness :
  (forall v : R, plain ((fun _ => "0"%string) v) = true)
  /\ (forall v : R,
        (fun _ : string => Some 0) ((fun _ => "0"%string) v) <> None)
  /\ List.length
       (lines (snd (main_image (fun _ : R => "0"%string)
                      [Ginput [(0, 0); (0, 10); (5, 10)];
                       Ginput [(0, 0); (1, 0); (1, 1)]; FigClosed])))
     = 8%nat.
Proof.
  split; [reflexivity|]. split; [discriminate|].
  apply (proj2 (proj2 (session_output_lines (fun _ : R => "0"%string)
           (fun _ : string => Some 0)
           (fun _ => eq_refl) ltac:(discriminate)
           [Ginput [(0, 0); (0, 10); (5, 10)];
            Ginput [(0, 0); (1, 0); (1, 1)]; FigClosed]))).
Defined.
End Witnesses.

(** ** From the clicks to the rectangle *)

Section ClickedRectangle.
Local Open Scope R_scope.



Lemma arctan2_0_0 : arctan2 0 0 = 0.
Proof.
  unfold arctan2.
  destruct (Rlt_dec 0 0) as [H0 | _]; [lra | reflexivity].
Qed.

(** X4: two first clicks on one point: the width is 0 and the angle is 0,
    so the rectangle collapses to the vertical segment from the point to
    the point [height] further along y. *)
Theorem double_click_collapses (p p3 : R * R) :
  exists m,
    annotate_image [p; p; p3] = inr (Some m)
    /\ angle_of p p = 0
    /\ corner m 0 = p
    /\ corner m 1 = p
    /\ corner m 2 = (fst p, snd p + euclidean_distance p p3)
    /\ corner m 3 = (fst p, snd p + euclidean_distance p p3).
Proof.
  eexists. split; [apply annotate_image_3|].
  assert (Ha : angle_of p p = 0).
  { destruct p as [x y]. unfold angle_of. real_ops.
    replace (y - y) with 0 by ring. replace (x - x) with 0 by ring.
    rewrite arctan2_0_0. unfold Rdiv. ring. }
  assert (Hw : width_of p p = 0).
  { destruct p as [x y]. unfold width_of. real_ops.
    replace ((x - x) ^ 2 + (y - y) ^ 2) with 0 by ring. apply sqrt_0. }
  assert (Hc : cos_deg 0 = 1).
  { unfold cos_deg, deg2rad. real_ops. rewrite Rmult_0_l. apply cos_0. }
  assert (Hs : sin_deg 0 = 0).
  { unfold sin_deg, deg2rad. real_ops. rewrite Rmult_0_l. apply sin_0. }
  rewrite Ha, Hw, height_of_distance.
  rewrite corner_0, corner_1, corner_2, corner_3, Hc, Hs.
  destruct p as [x y]. cbn [fst snd].
  repeat split; f_equal; ring.
Qed.

End ClickedRectangle.

(** ** More on the session of one image *)

Section SessionMore.
Context {F : Type} `{NumOps F}.
Variable fmt : F -> string.
Local Open Scope string_scope.

Lemma main_while_step3 (p1 p2 p3 : point) (tr : list event) (f : string) :
  main_while fmt (Ginput [p1; p2; p3] :: tr) f
  = main_while fmt tr
      (f ++ unlines (rect_lines fmt [p1; p2; p3])).
Proof.
  cbn [main_while]. rewrite annotate_image_3. unfold bind.
  rewrite write_vertices_rectangle. reflexivity.
Qed.

(** X11: closing the figure ends the session at the next test of the loop:
    after any number of completed rectangles the file holds exactly their
    lines, and nothing that the environment would answer later is
    used. *)
Theorem figure_closed_terminates (before : list (list point))
        (rest : list event) :
  Forall (fun pts => List.length pts = 3%nat) before ->
  main_image fmt (map (@Ginput F) before ++ FigClosed :: rest)
  = (inr Terminated, unlines (flat_map (rect_lines fmt) before)).
Proof.
  intros Hb. unfold main_image.
  rewrite main_while_app by assumption. cbn [main_while]. unfold ret.
  now rewrite main_while_content, completed_all.
Qed.

(** X12: the loop is still waiting for clicks exactly when every answer so
    far was a capture of three points: a session never ends by itself. *)
Theorem awaiting_iff_all_complete (tr : list event) (f : string) :
  fst (main_while fmt tr f) = inr AwaitingClicks
  <-> tr = map (@Ginput F) (completed tr).
Proof.
  revert f. induction tr as [|[|pts] tr IH]; intros f.
  - cbn. tauto.
  - cbn. split; discriminate.
  - cbn [completed].
    destruct (Nat.eqb_spec (List.length pts) 3) as [H3 | Hn3].
    + destruct pts as [|p1 [|p2 [|p3 [|p4 pts]]]]; try discriminate H3.
      rewrite main_while_step3, IH. cbn [map].
      split; [now intros <- | now intros [= <-]].
    + cbn [map]. split; [|discriminate].
      cbn [main_while].
      destruct (Nat.lt_ge_cases (List.length pts) 3) as [Hlt | Hge].
      * rewrite annotate_image_few by assumption. discriminate.
      * rewrite annotate_image_many by lia. discriminate.
Qed.

Lemma completed_app (tr tr' : list (@event F)) :
  exists more, completed (tr ++ tr') = (completed tr ++ more)%list.
Proof.
  induction tr as [|[|pts] tr [more IH]].
  - now exists (completed tr').
  - now exists [].
  - cbn [app completed].
    destruct (List.length pts =? 3)%nat.
    + exists more. now rewrite IH.
    + now exists [].
Qed.

(** X14: the file only grows: what a session has written is kept as it is
    at the head of the file, whatever it started from and whatever the
    environment answers afterwards. *)
Theorem file_only_grows (tr tr' : list event) (f : string) :
  (exists written, snd (main_while fmt tr f) = f ++ written)
  /\ (exists more,
        snd (main_while fmt (tr ++ tr') f) = snd (main_while fmt tr f) ++ more).
Proof.
  split.
  - eexists. apply main_while_content.
  - destruct (completed_app tr tr') as [more Hmore].
    exists (unlines (flat_map (rect_lines fmt) more)).
    rewrite !main_while_content, Hmore, flat_map_app, unlines_app.
    now rewrite append_assoc.
Qed.
End SessionMore.

(** ** [main]: the files after a run *)

Section MainFiles.
Context {F : Type} `{NumOps F}.
Variable fmt : F -> string.
Variable basename : string -> string.
Variable splitext : string -> string * string.
Variable join : string -> string -> string.
Local Open Scope string_scope.

Lemma main_cons_left (imgPath : string) (tr : list event)
      (imgFiles : list (string * list event)) (fs : files) :
  fst (main_image fmt tr) = inr Terminated ->
  main fmt basename splitext join ((imgPath, tr) :: imgFiles) fs
  = main fmt basename splitext join imgFiles
      (store fs (anno_filename_of basename splitext join imgPath)
         (snd (main_image fmt tr))).
Proof.
  intros Hres. cbn [main].
  destruct (main_image fmt tr) as [res c]. cbn in Hres. subst res.
  reflexivity.
Qed.

Lemma main_app (before imgFiles : list (string * list event)) (fs : files) :
  Forall (left_loop fmt) before ->
  main fmt basename splitext join (before ++ imgFiles) fs
  = main fmt basename splitext join imgFiles
      (snd (main fmt basename splitext join before fs)).
Proof.
  intros Hb. revert fs.
  induction Hb as [|[imgPath tr] before Hres _ IH]; intros fs; [reflexivity|].
  cbn [app]. cbn [snd] in Hres. rewrite !main_cons_left by assumption.
  apply IH.
Qed.

Lemma find_snoc {A : Type} (P : A -> bool) (l : list A) (x : A) :
  find P (l ++ [x])
  = match find P l with
    | Some y => Some y
    | None => if P x then Some x else None
    end.
Proof.
  induction l as [|a l IH]; cbn; [reflexivity|].
  destruct (P a); [reflexivity | exact IH].
Qed.

(** X15: when every session is left by closing the figure or by a short
    capture, [main] returns, and afterwards each annotation file holds the
    lines of the rectangles completed in the last session that wrote it,
    and nothing of what it held before the run (mode 'w'); every other
    path is as it was. *)
Theorem main_files (imgFiles : list (string * list event)) (fs : files) :
  Forall (left_loop fmt) imgFiles ->
  fst (main fmt basename splitext join imgFiles fs) = inr Terminated
  /\ forall path,
       snd (main fmt basename splitext join imgFiles fs) path
       = match last_session basename splitext join imgFiles path with
         | Some (_, tr) =>
             Some (unlines (flat_map (rect_lines fmt) (completed tr)))
         | None => fs path
         end.
Proof.
  intros Hall. revert fs.
  induction Hall as [|[imgPath tr] imgFiles Hres _ IH]; intros fs.
  - split; reflexivity.
  - cbn [snd] in Hres. rewrite main_cons_left by assumption.
    destruct (IH (store fs (anno_filename_of basename splitext join imgPath)
                    (snd (main_image fmt tr))))
      as [IHst IHfs].
    split; [exact IHst|].
    intros path. rewrite IHfs. unfold last_session.
    cbn [rev]. rewrite find_snoc.
    destruct (find _ (rev imgFiles)) as [[i t]|]; [reflexivity|].
    cbn [fst]. unfold store.
    destruct (String.eqb path _); [|reflexivity].
    unfold main_image. now rewrite main_while_content.
Qed.

End MainFiles.

(** ** The hypotheses of the session and run theorems hold of runs *)

Section MoreWitnesses.
Local Open Scope R_scope.

(** One rectangle, then the figure is closed; a later capture is not
    used. *)
Lemma figure_closed_terminates_witness :
  Forall (fun pts : list (R * R) => List.length pts = 3%nat)
    [[(0, 0); (0, 10); (5, 10)]]
  /\ main_image (fun _ : R => "0"%string)
       (map (@Ginput R) [[(0, 0); (0, 10); (5, 10)]]
        ++ FigClosed :: [Ginput [(1, 1); (2, 2); (3, 3)]])
     = (inr Terminated,
        unlines (flat_map (rect_lines (fun _ : R => "0"%string))
                   [[(0, 0); (0, 10); (5, 10)]])).
Proof.
  assert (Hb : Forall (fun pts : list (R * R) => List.length pts = 3%nat)
                 [[(0, 0); (0, 10); (5, 10)]]) by (repeat constructor).
  split; [exact Hb|].
  apply figure_closed_terminates. exact Hb.
Defined.

(** Two images, with path functions that keep the path as the name. *)
Lemma main_files_witness :
  Forall (left_loop (fun _ : R => "0"%string))
    [("a.png"%string, [FigClosed]);
     ("b.png"%string, [Ginput [(0, 0); (0, 10); (5, 10)]; Ginput []])]
  /\ fst (main (fun _ : R => "0"%string)
            (fun s => s) (fun s => (s, EmptyString)) append
            [("a.png"%string, [FigClosed]);
             ("b.png"%string, [Ginput [(0, 0); (0, 10); (5, 10)]; Ginput []])]
            (fun _ => None))
     = inr Terminated.
Proof.
  assert (Hall : Forall (left_loop (fun _ : R => "0"%string))
                   [("a.png"%string, [FigClosed]);
                    ("b.png"%string,
                     [Ginput [(0, 0); (0, 10); (5, 10)]; Ginput []])])
    by (repeat constructor).
  split; [exact Hall|].
  exact (proj1 (@main_files R _ _ (fun s => s) (fun s => (s, EmptyString))
                  append _ (fun _ => None) Hall)).
Defined.

End MoreWitnesses.

(** ** Corners, outline and run, for any scalars *)

Section Offsets.
Context {F : Type} `{NumOps F}.


(** X10: for three clicks, three calls are made on the axes: a marker at
    the first click, the segment from the first to the second click, and
    the outline of the rectangle, the closed path through the returned
    corners v1, v2, v3, v4 and back to v1, which is the first click. *)
Theorem outline_is_closed (p1 p2 p3 : @point F) :
  exists m c1 c2 c3 v2 v3 v4,
    annotate_image [p1; p2; p3] = inr (Some m)
    /\ annotate_image_plots [p1; p2; p3] = inr [c1; c2; c3]
    /\ column m 0 = Some p1
    /\ column m 1 = Some v2
    /\ column m 2 = Some v3
    /\ column m 3 = Some v4
    /\ plot_points c1 = [p1]
    /\ plot_points c2 = [p1; p2]
    /\ plot_points c3 = [p1; v2; v3; v4; p1].
Proof.
  destruct p1 as [x y], p2 as [x2 y2], p3 as [x3 y3].
  do 7 eexists. repeat split.
Qed.
End Offsets.

Section MainStops.
Context {F : Type} `{NumOps F}.
Variable fmt : F -> string.
Variable basename : string -> string.
Variable splitext : string -> string * string.
Variable join : string -> string -> string.

(** X16: a session that is not left (it still waits for clicks, or it
    raises) ends the run with its status: the images after it are not
    reached, and every path other than the annotation file of this image
    holds what it held when the session began. *)
Theorem main_stops (before rest : list (string * list event))
        (imgPath : string) (tr : list event) (fs : files) :
  Forall (left_loop fmt) before ->
  fst (main_image fmt tr) <> inr Terminated ->
  fst (main fmt basename splitext join (before ++ (imgPath, tr) :: rest) fs)
  = fst (main_image fmt tr)
  /\ forall path,
       path <> anno_filename_of basename splitext join imgPath ->
       snd (main fmt basename splitext join
              (before ++ (imgPath, tr) :: rest) fs) path
       = snd (main fmt basename splitext join before fs) path.
Proof.
  intros Hb Hres. rewrite main_app by assumption.
  cbn [main].
  destruct (main_image fmt tr) as [res c]. cbn [fst snd] in *.
  assert (Hstore : forall path,
             path <> anno_filename_of basename splitext join imgPath ->
             store (snd (main fmt basename splitext join before fs))
               (anno_filename_of basename splitext join imgPath) c path
             = snd (main fmt basename splitext join before fs) path).
  { intros path Hp. unfold store.
    destruct (String.eqb_spec path
                (anno_filename_of basename splitext join imgPath));
      [contradiction | reflexivity]. }
  destruct res as [e | [|]]; [| | contradiction]; split; try reflexivity;
    exact Hstore.
Qed.
End MainStops.

(** The second of three images gets no answer after its window opens. *)
Lemma main_stops_witness :
  Forall (left_loop (fun _ : R => "0"%string)) [("a.png"%string, [FigClosed])]
  /\ fst (main_image (fun _ : R => "0"%string) []) <> inr Terminated
  /\ fst (main (fun _ : R => "0"%string)
            (fun s => s) (fun s => (s, EmptyString)) append
            ([("a.png"%string, [FigClosed])]
             ++ ("b.png"%string, []) :: [("c.png"%string, [FigClosed])])
            (fun _ => None))
     = inr AwaitingClicks.
Proof.
  assert (Hb : Forall (left_loop (fun _ : R => "0"%string))
                 [("a.png"%string, [FigClosed])]) by (repeat constructor).
  assert (Hw : fst (main_image (fun _ : R => "0"%string) [])
               <> inr Terminated) by discriminate.
  split; [exact Hb|]. split; [exact Hw|].
  exact (proj1 (@main_stops R _ _ (fun s => s) (fun s => (s, EmptyString))
                  append _ [("c.png"%string, [FigClosed])] "b.png"%string _
                  (fun _ => None) Hb Hw)).
Defined.

(** ** The geometry engine on binary64 numbers *)

Module Binary64Facts.
Import PrimFloat SpecFloat FloatOps FloatAxioms.
Import Binary64 Exact.
Import QArith.

Lemma Prim2SF_zero : Prim2SF zero = S754_zero false.
Proof. reflexivity. Qed.

Lemma is_zero_spec (a : float) :
  is_zero a = true <-> exists s, Prim2SF a = S754_zero s.
Proof.
  unfold is_zero. rewrite FloatAxioms.eqb_spec, Prim2SF_zero.
  destruct (Prim2SF a) as [s | s | | s m e]; cbn.
  - split; [intros _; now exists s | reflexivity].
  - split; [destruct s; discriminate | intros [s' Hs]; discriminate].
  - split; [discriminate | intros [s' Hs]; discriminate].
  - split; [destruct s; discriminate | intros [s' Hs]; discriminate].
Qed.

(** Adding a zero leaves a float as it is, up to the sign of a zero. *)
Lemma add_zero_same (a z : float) :
  is_zero z = true -> b64_same (a + z)%float a.
Proof.
  intros Hz. apply is_zero_spec in Hz as [sz Hz].
  pose proof (FloatAxioms.add_spec a z) as Hadd. rewrite Hz in Hadd.
  unfold SF64add, SFadd in Hadd.
  destruct (Prim2SF a) as [sa | sa | | sa ma ea] eqn:Ha.
  - right. split; apply is_zero_spec; [|now exists sa].
    destruct sa, sz; eexists; exact Hadd.
  - left. apply Prim2SF_inj. now rewrite Hadd, Ha.
  - left. apply Prim2SF_inj. now rewrite Hadd, Ha.
  - left. apply Prim2SF_inj. now rewrite Hadd, Ha.
Qed.

(** Adding one offset to two floats that are the same gives the same. *)
Lemma add_same_l (a b o : float) :
  b64_same a b -> b64_same (a + o)%float (b + o)%float.
Proof.
  intros [-> | [Ha Hb]]; [now left|].
  apply is_zero_spec in Ha as [sa Ha]. apply is_zero_spec in Hb as [sb Hb].
  pose proof (FloatAxioms.add_spec a o) as Hao. pose proof (FloatAxioms.add_spec b o) as Hbo.
  rewrite Ha in Hao. rewrite Hb in Hbo.
  unfold SF64add, SFadd in Hao, Hbo.
  destruct (Prim2SF o) as [so | so | | so mo eo].
  - right. split; apply is_zero_spec.
    + destruct sa, so; eexists; exact Hao.
    + destruct sb, so; eexists; exact Hbo.
  - left. apply Prim2SF_inj. now rewrite Hao, Hbo.
  - left. apply Prim2SF_inj. now rewrite Hao, Hbo.
  - left. apply Prim2SF_inj. now rewrite Hao, Hbo.
Qed.

(** A zero times a number is a zero. *)
Lemma mul_zero_l (w c : float) :
  is_zero w = true -> b64_number c = true -> is_zero (w * c)%float = true.
Proof.
  intros Hw Hc. apply is_zero_spec in Hw as [sw Hw]. apply is_zero_spec.
  pose proof (FloatAxioms.mul_spec w c) as Hmul. rewrite Hw in Hmul.
  unfold b64_number in Hc. unfold SF64mul, SFmul in Hmul.
  destruct (Prim2SF c) as [sc | sc | | sc mc ec]; try discriminate Hc;
    eexists; exact Hmul.
Qed.

Lemma opp_number (s : float) : b64_number s = true -> b64_number (- s)%float = true.
Proof.
  unfold b64_number. rewrite FloatAxioms.opp_spec.
  now destruct (Prim2SF s).
Qed.


(** Floats that are the same have the same value. *)
Lemma same_value (a b : float) : b64_same a b -> b64_to_Q a = b64_to_Q b.
Proof.
  intros [-> | [Ha Hb]]; [reflexivity|].
  apply is_zero_spec in Ha as [sa Ha]. apply is_zero_spec in Hb as [sb Hb].
  unfold b64_to_Q. now rewrite Ha, Hb.
Qed.

Lemma same_point_exact (p q : float * float) :
  same_point p q -> exact p = exact q.
Proof.
  intros [Hx Hy]. unfold exact.
  now rewrite (same_value Hx), (same_value Hy).
Qed.

Section AnyLibm.
Variables libm_cos libm_sin : float -> float.
Variable libm_atan2 : float -> float -> float.
Local Notation "'ops'" := (b64_ops libm_cos libm_sin libm_atan2).

Lemma b64_corner_0 (x y w h a : float) :
  b64_corner (@rectangle_w_angle float ops x y w h a) 0 = (x, y).
Proof. reflexivity. Qed.

Lemma b64_corner_1 (x y w h a : float) :
  b64_corner (@rectangle_w_angle float ops x y w h a) 1
  = (x + w * @cos_deg float ops a, y + w * @sin_deg float ops a)%float.
Proof. reflexivity. Qed.

Lemma b64_corner_2 (x y w h a : float) :
  b64_corner (@rectangle_w_angle float ops x y w h a) 2
  = (x + w * @cos_deg float ops a + h * - @sin_deg float ops a,
     y + w * @sin_deg float ops a + h * @cos_deg float ops a)%float.
Proof. reflexivity. Qed.

Lemma b64_corner_3 (x y w h a : float) :
  b64_corner (@rectangle_w_angle float ops x y w h a) 3
  = (x + h * - @sin_deg float ops a, y + h * @cos_deg float ops a)%float.
Proof. reflexivity. Qed.


(** C6: in binary64, when the cosine and the sine that the C library
    returns are numbers, a width that is zero makes v2 the same as v1
    and v3 the same as v4, and a height that is zero makes v4 the same as
    v1 and v3 the same as v2 (the same float, or two zeros); in both cases
    the area of the returned quadrilateral is zero. *)
Theorem zero_size_collapses (x y w h a : float) :
  b64_number (@cos_deg float ops a) = true ->
  b64_number (@sin_deg float ops a) = true ->
  let m := @rectangle_w_angle float ops x y w h a in
  ((w =? 0)%float = true ->
   same_point (b64_corner m 1) (b64_corner m 0)
   /\ same_point (b64_corner m 2) (b64_corner m 3)
   /\ b64_degenerate m)
  /\ ((h =? 0)%float = true ->
      same_point (b64_corner m 3) (b64_corner m 0)
      /\ same_point (b64_corner m 2) (b64_corner m 1)
      /\ b64_degenerate m).
Proof.
  intros Hc Hs m. subst m.
  pose proof (opp_number _ Hs) as Hs'.
  split.
  - intros Hw. change (is_zero w = true) in Hw.
    assert (H10 : same_point
                    (b64_corner (@rectangle_w_angle float ops x y w h a) 1)
                    (b64_corner (@rectangle_w_angle float ops x y w h a) 0)).
    { rewrite b64_corner_0, b64_corner_1.
      split; cbn [fst snd]; apply add_zero_same; now apply mul_zero_l. }
    assert (H23 : same_point
                    (b64_corner (@rectangle_w_angle float ops x y w h a) 2)
                    (b64_corner (@rectangle_w_angle float ops x y w h a) 3)).
    { destruct H10 as [Hx Hy]. rewrite b64_corner_0, b64_corner_1 in Hx, Hy.
      cbn [fst snd] in Hx, Hy.
      rewrite b64_corner_2, b64_corner_3.
      split; cbn [fst snd]; now apply add_same_l. }
    split; [exact H10|]. split; [exact H23|].
    unfold b64_degenerate.
    rewrite (same_point_exact H10), (same_point_exact H23).
    unfold qsigned_area, Qdiv. ring.
  - intros Hh. change (is_zero h = true) in Hh.
    assert (H30 : same_point
                    (b64_corner (@rectangle_w_angle float ops x y w h a) 3)
                    (b64_corner (@rectangle_w_angle float ops x y w h a) 0)).
    { rewrite b64_corner_0, b64_corner_3.
      split; cbn [fst snd]; apply add_zero_same; now apply mul_zero_l. }
    assert (H21 : same_point
                    (b64_corner (@rectangle_w_angle float ops x y w h a) 2)
                    (b64_corner (@rectangle_w_angle float ops x y w h a) 1)).
    { rewrite b64_corner_2, b64_corner_1.
      split; cbn [fst snd]; apply add_zero_same; now apply mul_zero_l. }
    split; [exact H30|]. split; [exact H21|].
    unfold b64_degenerate.
    rewrite (same_point_exact H30), (same_point_exact H21).
    unfold qsigned_area, Qdiv. ring.
Qed.

(** C7: in binary64, with the values of the C library at the arguments
    reached (atan2(10, 0) and the cosine and sine of [half_pi]), the clicks
    (0,0), (0,10), (5,10) give the angle 90 exactly and the corners
    (0, 0), (6.123233995736766e-16, 10), (-4.999999999999999, 10),
    (-5, 3.061616997868383e-16) in the order v1, v2, v3, v4: v1 is exact
    and every coordinate is within 1e-15 of the corners (0,0), (0,10),
    (-5,10), (-5,0). *)
Theorem scenario_vertical_b64 :
  libm_atan2 10 0 = half_pi ->
  libm_cos half_pi = 0x1.1a62633145c07p-54%float ->
  libm_sin half_pi = 1%float ->
  let pts := [(0, 0); (0, 10); (5, 10)]%float in
  let m := [[0; 0x1.60fafbfd97309p-51; -0x1.3ffffffffffffp+2; -5];
            [0; 10; 10; 0x1.60fafbfd97309p-52]]%float in
  @angle_of float ops (0, 0)%float (0, 10)%float = 90%float
  /\ @annotate_image float ops pts = inr (Some m)
  /\ b64_corner m 0 = (0, 0)%float
  /\ within (1 # 10 ^ 15) (b64_corner m 1) (0, 10) = true
  /\ within (1 # 10 ^ 15) (b64_corner m 2) (-5, 10) = true
  /\ within (1 # 10 ^ 15) (b64_corner m 3) (-5, 0) = true.
Proof.
  intros Hatan Hcos Hsin pts m. subst pts m. unfold half_pi in *.
  assert (Ha : @angle_of float ops (0, 0)%float (0, 10)%float = 90%float).
  { cbv. rewrite Hatan. reflexivity. }
  split; [exact Ha|].
  split.
  - cbv. rewrite Hatan. cbv. rewrite Hcos, Hsin. reflexivity.
  - repeat split; vm_compute; reflexivity.
Qed.
End AnyLibm.

(** The values of [tab_cos], [tab_sin] and [tab_atan2] are those the
    scenario needs. *)
Lemma scenario_vertical_b64_witness :
  tab_atan2 10 0 = half_pi
  /\ tab_cos half_pi = 0x1.1a62633145c07p-54%float
  /\ tab_sin half_pi = 1%float
  /\ @angle_of float b64_tab (0, 0)%float (0, 10)%float = 90%float.
Proof.
  split; [reflexivity|]. split; [reflexivity|]. split; [reflexivity|].
  exact (proj1 (scenario_vertical_b64 tab_cos tab_sin tab_atan2
                  eq_refl eq_refl eq_refl)).
Defined.

(** A zero width at angle 0, where the cosine is 1 and the sine 0. *)
Lemma zero_size_collapses_witness :
  b64_number (@cos_deg float b64_tab 0%float) = true
  /\ b64_number (@sin_deg float b64_tab 0%float) = true
  /\ (0 =? 0)%float = true
  /\ b64_degenerate (@rectangle_w_angle float b64_tab 3 4 0 2 0)%float.
Proof.
  split; [reflexivity|]. split; [reflexivity|]. split; [reflexivity|].
  apply (proj1 (zero_size_collapses tab_cos tab_sin tab_atan2
                  3 4 0 2 0 eq_refl eq_refl) eq_refl).
Defined.

(** ** Where rounding shows *)


(** At (1e20, 1e20, 1, 1, 0) the width and the height are absorbed by
    the coordinates: the four binary64 corners are one point, so the area
    is zero although neither the width nor the height is zero. *)
Lemma collapse_without_zero_size :
  let m := (@rectangle_w_angle float b64_tab 1e20 1e20 1 1 0)%float in
  m = [[1e20; 1e20; 1e20; 1e20]; [1e20; 1e20; 1e20; 1e20]]%float
  /\ ~ (b64_degenerate m <-> ((1 =? 0)%float = true \/ (1 =? 0)%float = true)).
Proof.
  cbv zeta. split; [vm_compute; reflexivity|].
  intros [Honly _].
  assert (Hd : b64_degenerate
                 (@rectangle_w_angle float b64_tab 1e20 1e20 1 1 0)%float)
    by (vm_compute; reflexivity).
  destruct (Honly Hd) as [E | E]; vm_compute in E; discriminate E.
Qed.

(** There the distance from v1 to v2 is 0 for the width 1. *)
Lemma far_origin_absorbs_width :
  let m := (@rectangle_w_angle float b64_tab 1e20 1e20 1 1 0)%float in
  b64_corner m 1 = b64_corner m 0 /\ (1 =? 0)%float = false.
Proof. cbv zeta. split; vm_compute; reflexivity. Qed.

(** At the clicks (0,0), (0,10), (5,10) the binary64 result is not the
    array of the corners (0,0), (0,10), (-5,10), (-5,0): its second corner
    is (6.123233995736766e-16, 10). *)
Lemma scenario_corners_not_exact :
  @annotate_image float b64_tab [(0, 0); (0, 10); (5, 10)]%float
  <> inr (Some [[0; 0; -5; -5]; [0; 10; 10; 0]]%float).
Proof.
  intros E. vm_compute in E.
  assert (E1 : (0x1.60fafbfd97309p-51 = 0)%float) by congruence.
  apply Leibniz.eqb_spec in E1. vm_compute in E1. discriminate E1.
Qed.

End Binary64Facts.
